(** * battery-stats: a shallow embedding of [battery_stats.cpp]

    The statistics engine [BatteryMonitor] is modelled as an explicit state
    record threaded through its entry points.  Modelling choices:
    - [double] is Rocq's primitive IEEE-754 binary64 [float], so every
      arithmetic step of the source is the rounded operation the program runs;
    - clock readings ([Clock::now()], [RelClock::now()]) are inputs of each
      entry point, as integer nanosecond counts ([Env]); one call sees one
      wall-clock and one monotonic instant;
    - an output line is the wall-clock second it is stamped with (rendered by
      [std::chrono::zoned_time] in the local zone) together with the text
      the source writes after that stamp;
    - [std::format] of integers and of [{:.Nf}] fixed-point doubles is
      written out (exact decimal expansion, round half to even). *)

From Stdlib Require Import ZArith Lia List String Ascii Bool.
From Stdlib Require Import Floats.
Import ListNotations.
Open Scope string_scope.

(** ** Decimal rendering, as [std::format] does it *)

Fixpoint uint_to_string (u : Decimal.uint) : string :=
  match u with
  | Decimal.Nil => ""
  | Decimal.D0 u => String "0" (uint_to_string u)
  | Decimal.D1 u => String "1" (uint_to_string u)
  | Decimal.D2 u => String "2" (uint_to_string u)
  | Decimal.D3 u => String "3" (uint_to_string u)
  | Decimal.D4 u => String "4" (uint_to_string u)
  | Decimal.D5 u => String "5" (uint_to_string u)
  | Decimal.D6 u => String "6" (uint_to_string u)
  | Decimal.D7 u => String "7" (uint_to_string u)
  | Decimal.D8 u => String "8" (uint_to_string u)
  | Decimal.D9 u => String "9" (uint_to_string u)
  end.

(** [std::format("{}", n)] for an integer [n]. *)
Definition Z_to_dec (n : Z) : string :=
  match n with
  | Z.neg p => "-" ++ uint_to_string (Pos.to_uint p)
  | _ => uint_to_string (N.to_uint (Z.to_N n))
  end.

Fixpoint zero_pad (width : nat) (s : string) : string :=
  match width with
  | O => s
  | S w => if Nat.leb (S w) (String.length s) then s
           else zero_pad w ("0" ++ s)
  end.

(** Round [num / den] (with [den > 0], [num >= 0]) to the nearest integer,
    ties to even. *)
Definition round_half_even (num den : Z) : Z :=
  let q := Z.div num den in
  let r := Z.modulo num den in
  match Z.compare (2 * r) den with
  | Lt => q
  | Gt => q + 1
  | Eq => if Z.even q then q else q + 1
  end.

(** [std::format("{:.Nf}", x)], or [{:+.Nf}] when [plus] is set.  A NaN is
    printed without sign (primitive floats have a single NaN). *)
Definition format_fixed (plus : bool) (digits : nat) (x : float) : string :=
  let scale := (10 ^ Z.of_nat digits)%Z in
  let body (n : Z) :=
    Z_to_dec (Z.div n scale) ++
    (match digits with
     | O => ""
     | _ => "." ++ zero_pad digits (Z_to_dec (Z.modulo n scale))
     end) in
  let sgn (neg : bool) := if neg then "-" else if plus then "+" else "" in
  match Prim2SF x with
  | S754_zero s => sgn s ++ body 0%Z
  | S754_infinity s => sgn s ++ "inf"
  | S754_nan => "nan"
  | S754_finite s m e =>
      let n :=
        if (0 <=? e)%Z then (Z.pos m * 2 ^ e * scale)%Z
        else round_half_even (Z.pos m * scale) (2 ^ (- e)) in
      sgn s ++ body n
  end.

Definition fmt2 := format_fixed false 2.
Definition fmt2_signed := format_fixed true 2.
Definition fmt1 := format_fixed false 1.

(** Conversion of an [int64] count to [double] (nearest, as C++ does). *)
Definition Z_to_double (z : Z) : float :=
  if (z <? 0)%Z then (- of_uint63 (Uint63.of_Z (- z)))%float
  else of_uint63 (Uint63.of_Z z).

(** ** [formatRelTime] *)

(** The body of [formatRelTime] once [duration_cast<seconds>] has produced
    the whole-second count [relTime]. *)
Definition formatRelTime_secs (relTime : Z) : string :=
  if (relTime =? 0)%Z then ""
  else
    let hours := Z.quot relTime 3600 in
    let out1 := if (hours >? 0)%Z then Z_to_dec hours ++ "h" else "" in
    let mins := (Z.quot relTime 60 - hours * 60)%Z in
    let out2 := if (mins >? 0)%Z then out1 ++ Z_to_dec mins ++ "m" else out1 in
    let secs := (relTime - hours * 3600 - mins * 60)%Z in
    if (secs >? 0)%Z then out2 ++ Z_to_dec secs ++ "s" else out2.

(** [formatRelTime] on a duration of [d] ticks of [ticks_per_sec] ticks per
    second ([std::chrono::duration_cast] truncates toward zero). *)
Definition formatRelTime (ticks_per_sec d : Z) : string :=
  formatRelTime_secs (Z.quot d ticks_per_sec).


(** ** The statistics engine *)

Inductive PowerState := Awake | Suspended | Hibernating.

Inductive BatteryState := Charging | Discharging | Idle.

(** [enum class Stat] and [StatFlags] as their underlying [uint32_t]. *)
Definition Stat_energy : Z := 1.
Definition Stat_rate : Z := 2.
Definition Stat_averageRate : Z := 4.
Definition Stat_relEnergy : Z := 8.

(** [bool operator&(StatFlags, Stat)] *)
Definition has_stat (flags a : Z) : bool := negb (Z.land flags a =? 0)%Z.

(** The instants [Clock::now()] and [RelClock::now()] return during one call,
    in nanoseconds. *)
Record Env := mkEnv { wall_now : Z; mono_now : Z }.

Record Reading := mkReading { time : Z; relTime : Z; energy : float }.

Record BatteryMonitor := mkMonitor {
  energyEmpty : option float;
  energyFull : option float;
  firstReading : option Reading;
  readings : list Reading;
  printSuspendStats : bool;
  enterSuspendTime : option Z;
  totalSuspendEnergy : float
}.

(** [BatteryMonitor() = default] *)
Definition init : BatteryMonitor :=
  {| energyEmpty := None; energyFull := None; firstReading := None;
     readings := []; printSuspendStats := false; enterSuspendTime := None;
     totalSuspendEnergy := 0%float |}.

(** One line written to [std::cout]: the second it is stamped with and the
    text after the stamp. *)
Record Line := mkLine { stamp : Z; text : string }.

Definition isSuspended (m : BatteryMonitor) : bool :=
  match enterSuspendTime m with Some _ => true | None => false end.

(** [readings.back()] and, when [readings.size() > 1],
    [*std::prev(readings.end(), 2)]. *)
Definition back (rs : list Reading) : option Reading :=
  match rev rs with c :: _ => Some c | [] => None end.

Definition second_last (rs : list Reading) : option Reading :=
  match rev rs with _ :: p :: _ => Some p | _ => None end.

Definition ms_per_ns : Z := 1000000.
Definition ns_per_s : Z := 1000000000.

(** [printRate] *)
Definition printRate (m : BatteryMonitor) (energyDiff : float) (timeDiff : Z)
    : string :=
  let msPerHour := of_uint63 (Uint63.of_Z (1000 * 60 * 60)) in
  let hours := (Z_to_double timeDiff / msPerHour)%float in
  let watts := (energyDiff / hours)%float in
  fmt2 watts ++ " W" ++
  match energyEmpty m, energyFull m with
  | Some empty, Some full =>
      let percentPerHour := ((100 * energyDiff / (full - empty)) / hours)%float in
      if (1 <=? abs percentPerHour)%float then
        " (" ++ fmt1 percentPerHour ++ "%/hr)"
      else
        let percentPerDay := (percentPerHour * 24)%float in
        " (" ++ fmt1 percentPerDay ++ "%/day)"
  | _, _ => ""
  end.

(** The pieces of [print], in the order the source writes them. *)
Definition print_elapsed (env : Env) (m : BatteryMonitor) : string :=
  match firstReading m with
  | Some f =>
      let runTimeStr := formatRelTime ns_per_s (mono_now env - relTime f) in
      if String.eqb runTimeStr "" then "" else " (+" ++ runTimeStr ++ ")"
  | None => ""
  end.

Definition print_energy (flags : Z) (m : BatteryMonitor) (cur : Reading)
    : string :=
  if has_stat flags Stat_energy then
    " - " ++ fmt2 (energy cur) ++ " Wh" ++
    match energyEmpty m, energyFull m with
    | Some empty, Some full =>
        let percent := (100 * (energy cur - empty) / (full - empty))%float in
        " (" ++ fmt2 percent ++ "%)"
    | _, _ => ""
    end
  else "".

Definition print_relEnergy (flags : Z) (m : BatteryMonitor) (cur : Reading)
    (prev : option Reading) : string :=
  match prev with
  | Some p =>
      if has_stat flags Stat_relEnergy then
        let energyDiff := (energy cur - energy p)%float in
        " - " ++ fmt2_signed energyDiff ++ " Wh" ++
        match energyEmpty m, energyFull m with
        | Some empty, Some full =>
            let percent := (100 * energyDiff / (full - empty))%float in
            " (" ++ fmt2 percent ++ "%)"
        | _, _ => ""
        end
      else ""
  | None => ""
  end.

Definition print_rate (flags : Z) (m : BatteryMonitor) (cur : Reading)
    (prev : option Reading) : string :=
  match prev with
  | Some p =>
      if has_stat flags Stat_rate then
        " / Rate " ++ printRate m (energy cur - energy p)%float
                                  (Z.quot (time cur - time p) ms_per_ns)
      else ""
  | None => ""
  end.

Definition print_averageRate (flags : Z) (m : BatteryMonitor) (cur : Reading)
    : string :=
  match firstReading m with
  | Some f =>
      if has_stat flags Stat_averageRate && (1 <? List.length (readings m))%nat then
        let awakeEnergy :=
          (energy cur - energy f - totalSuspendEnergy m)%float in
        let awakeTime := (relTime cur - relTime f)%Z in
        " / Avg " ++ printRate m awakeEnergy (Z.quot awakeTime ms_per_ns)
      else ""
  | None => ""
  end.

(** [print(msg, flags)] *)
Definition print (env : Env) (msg : string) (flags : Z) (m : BatteryMonitor)
    : Line :=
  let head :=
    print_elapsed env m ++ (if String.eqb msg "" then "" else " - " ++ msg) in
  mkLine (Z.quot (wall_now env) ns_per_s)
    match back (readings m) with
    | None => head
    | Some cur =>
        let prev := second_last (readings m) in
        head ++ print_energy flags m cur ++ print_relEnergy flags m cur prev
             ++ print_rate flags m cur prev ++ print_averageRate flags m cur
    end.

(** ** Entry points; each returns the new state and the lines it writes *)

(** [setPowerState] *)
Definition setPowerState (env : Env) (powerState : PowerState)
    (m : BatteryMonitor) : BatteryMonitor * list Line :=
  match powerState with
  | Suspended =>
      let m' := {| energyEmpty := energyEmpty m; energyFull := energyFull m;
                   firstReading := firstReading m; readings := readings m;
                   printSuspendStats := printSuspendStats m;
                   enterSuspendTime := Some (wall_now env);
                   totalSuspendEnergy := totalSuspendEnergy m |} in
      (m', [print env "Going to sleep" 0 m'])
  | Awake =>
      match enterSuspendTime m with
      | None => (m, [])
      | Some t =>
          let suspendTime := Z.quot (wall_now env - t) ms_per_ns in
          let m' := {| energyEmpty := energyEmpty m; energyFull := energyFull m;
                       firstReading := firstReading m; readings := readings m;
                       printSuspendStats := true;
                       enterSuspendTime := None;
                       totalSuspendEnergy := totalSuspendEnergy m |} in
          (m', [print env ("Resumed from " ++ formatRelTime 1000 suspendTime
                           ++ " sleep") 0 m'])
      end
  | Hibernating => (m, [])
  end.

(** [setBatteryState] *)
Definition setBatteryState (env : Env) (batteryState : BatteryState)
    (m : BatteryMonitor) : BatteryMonitor * list Line :=
  match batteryState with
  | Idle => (m, [print env "Battery idle" 0 m])
  | _ =>
      let m' := {| energyEmpty := energyEmpty m; energyFull := energyFull m;
                   firstReading := None; readings := [];
                   printSuspendStats := printSuspendStats m;
                   enterSuspendTime := enterSuspendTime m;
                   totalSuspendEnergy := 0%float |} in
      let msg := match batteryState with
                 | Charging => "Battery charging"
                 | Discharging => "Battery discharging"
                 | Idle => "" end in
      (m', [print env msg 0 m'])
  end.

(** [setBatteryLimits] *)
Definition setBatteryLimits (empty full : float) (m : BatteryMonitor)
    : BatteryMonitor :=
  {| energyEmpty := Some empty; energyFull := Some full;
     firstReading := firstReading m; readings := readings m;
     printSuspendStats := printSuspendStats m;
     enterSuspendTime := enterSuspendTime m;
     totalSuspendEnergy := totalSuspendEnergy m |}.

(** [readings.push_back(r); if (readings.size() > 2) readings.pop_front();] *)
Definition push_reading (rs : list Reading) (r : Reading) : list Reading :=
  let rs1 := (rs ++ [r])%list in
  if (2 <? List.length rs1)%nat then tl rs1 else rs1.

(** [updateEnergy] *)
Definition updateEnergy (env : Env) (e : float) (m : BatteryMonitor)
    : BatteryMonitor * list Line :=
  if isSuspended m then (m, [])
  else
    let r := mkReading (wall_now env) (mono_now env) e in
    let first := match firstReading m with None => Some r | f => f end in
    let rs := push_reading (readings m) r in
    if printSuspendStats m then
      let total :=
        if (1 <? List.length rs)%nat then
          match second_last rs with
          | Some p => (totalSuspendEnergy m + (e - energy p))%float
          | None => totalSuspendEnergy m
          end
        else totalSuspendEnergy m in
      let m1 := {| energyEmpty := energyEmpty m; energyFull := energyFull m;
                   firstReading := first; readings := rs;
                   printSuspendStats := true;
                   enterSuspendTime := enterSuspendTime m;
                   totalSuspendEnergy := total |} in
      let l := print env "Sleep energy use"
                 (Z.lor Stat_relEnergy Stat_rate) m1 in
      ({| energyEmpty := energyEmpty m; energyFull := energyFull m;
          firstReading := first; readings := rs;
          printSuspendStats := false;
          enterSuspendTime := enterSuspendTime m;
          totalSuspendEnergy := total |}, [l])
    else
      let m1 := {| energyEmpty := energyEmpty m; energyFull := energyFull m;
                   firstReading := first; readings := rs;
                   printSuspendStats := false;
                   enterSuspendTime := enterSuspendTime m;
                   totalSuspendEnergy := totalSuspendEnergy m |} in
      (m1, [print env ""
              (Z.lor (Z.lor Stat_energy Stat_rate) Stat_averageRate) m1]).

(** ** Runs of entry-point calls *)

Inductive Call :=
| CallPower (env : Env) (ps : PowerState)
| CallBattery (env : Env) (bs : BatteryState)
| CallLimits (empty full : float)
| CallUpdate (env : Env) (e : float).

Definition step (c : Call) (m : BatteryMonitor) : BatteryMonitor * list Line :=
  match c with
  | CallPower env ps => setPowerState env ps m
  | CallBattery env bs => setBatteryState env bs m
  | CallLimits em fu => (setBatteryLimits em fu m, [])
  | CallUpdate env e => updateEnergy env e m
  end.

Fixpoint run (cs : list Call) (m : BatteryMonitor)
    : BatteryMonitor * list Line :=
  match cs with
  | [] => (m, [])
  | c :: cs' =>
      let (m1, out1) := step c m in
      let (m2, out2) := run cs' m1 in
      (m2, (out1 ++ out2)%list)
  end.

Inductive reachable : BatteryMonitor -> Prop :=
| reachable_init : reachable init
| reachable_step c m : reachable m -> reachable (fst (step c m)).

(** ** [processBatteryProperties]

    A property-change notification is the list of (name, value) pairs of its
    [a{sv}] dictionary, in the order the message carries them; the
    [std::unordered_map] built from it is looked up by name with [find]. *)

Inductive UPowerDeviceProperty :=
| PString (s : string)
| PUint64 (n : Z)
| PUint32 (n : Z)
| PBool (b : bool)
| PDouble (x : float)
| PInt32 (n : Z)
| PInt64 (n : Z).

Definition UPowerDeviceProperties := list (string * UPowerDeviceProperty).

Fixpoint find_prop (name : string) (props : UPowerDeviceProperties)
    : option UPowerDeviceProperty :=
  match props with
  | [] => None
  | (k, v) :: rest => if String.eqb k name then Some v else find_prop name rest
  end.

(** [std::get<uint32_t>] and [std::get<double>]; [None] is the
    [std::bad_variant_access] they throw on a mismatched alternative. *)
Definition get_uint32 (v : UPowerDeviceProperty) : option Z :=
  match v with PUint32 n => Some n | _ => None end.

Definition get_double (v : UPowerDeviceProperty) : option float :=
  match v with PDouble x => Some x | _ => None end.

(** The entry-point calls the translation makes on [batmon]. *)
Inductive Forward :=
| FwdBatteryState (bs : BatteryState)
| FwdBatteryLimits (empty full : float)
| FwdEnergy (e : float).

(** All calls made, or the calls made before an exception escaped. *)
Inductive Outcome :=
| Completed (calls : list Forward)
| Threw (calls : list Forward).

Definition state_step (props : UPowerDeviceProperties)
    : option (list Forward) :=
  match find_prop "State" props with
  | None => Some []
  | Some v =>
      match get_uint32 v with
      | None => None
      | Some state =>
          Some (if (state =? 1)%Z then [FwdBatteryState Charging]
                else if (state =? 2)%Z then [FwdBatteryState Discharging]
                else if (state =? 4)%Z || (state =? 5)%Z then
                  [FwdBatteryState Idle]
                else [])
      end
  end.

Definition limits_step (props : UPowerDeviceProperties)
    : option (list Forward) :=
  match find_prop "EnergyEmpty" props with
  | None => Some []
  | Some v =>
      match get_double v with
      | None => None
      | Some energyEmpty =>
          match find_prop "EnergyFull" props with
          | None => Some []
          | Some w =>
              match get_double w with
              | None => None
              | Some energyFull => Some [FwdBatteryLimits energyEmpty energyFull]
              end
          end
      end
  end.

Definition energy_step (props : UPowerDeviceProperties)
    : option (list Forward) :=
  match find_prop "Energy" props with
  | None => Some []
  | Some v =>
      match get_double v with
      | None => None
      | Some e => Some [FwdEnergy e]
      end
  end.

Definition processBatteryProperties (props : UPowerDeviceProperties)
    : Outcome :=
  match state_step props with
  | None => Threw []
  | Some c1 =>
      match limits_step props with
      | None => Threw c1
      | Some c2 =>
          match energy_step props with
          | None => Threw (c1 ++ c2)%list
          | Some c3 => Completed (c1 ++ c2 ++ c3)%list
          end
      end
  end.

(** The entry-point call a forwarded call is, at the instant [env]. *)
Definition forward_call (env : Env) (f : Forward) : Call :=
  match f with
  | FwdBatteryState bs => CallBattery env bs
  | FwdBatteryLimits em fu => CallLimits em fu
  | FwdEnergy e => CallUpdate env e
  end.

(** ** Auxiliary notions used by the statements *)

(** [sub] occurs in [s]. *)
Definition contains (s sub : string) : Prop :=
  exists pre post, s = pre ++ sub ++ post.

(** The last [n] elements of a list. *)
Definition lastn {A} (n : nat) (l : list A) : list A :=
  skipn (List.length l - n) l.

(** The capacity pair of the last [setBatteryLimits] call of a run, or [d]
    when there is none. *)
Fixpoint last_limits (cs : list Call) (d : float * float) : float * float :=
  match cs with
  | [] => d
  | CallLimits em fu :: cs' => last_limits cs' (em, fu)
  | _ :: cs' => last_limits cs' d
  end.

(** No reading is admitted along the run [cs] from [m]: every
    [updateEnergy] call of it arrives while suspended. *)
Fixpoint no_admit (cs : list Call) (m : BatteryMonitor) : Prop :=
  match cs with
  | [] => True
  | c :: cs' =>
      (match c with CallUpdate _ _ => isSuspended m = true | _ => True end)
      /\ no_admit cs' (fst (step c m))
  end.

(** The formatter as the spec words it: truncate to whole seconds, split into
    hours, minutes and remaining seconds, write each nonzero one. *)
Definition formatRelTime_as_specified (ticks_per_sec d : Z) : string :=
  let s := Z.quot d ticks_per_sec in
  let h := Z.quot s 3600 in
  let mi := (Z.quot s 60 - h * 60)%Z in
  let se := (s - h * 3600 - mi * 60)%Z in
  (if (h =? 0)%Z then "" else Z_to_dec h ++ "h") ++
  (if (mi =? 0)%Z then "" else Z_to_dec mi ++ "m") ++
  (if (se =? 0)%Z then "" else Z_to_dec se ++ "s").

(** ** Evaluations of the model on small inputs *)

Example fmt_ex1 : fmt2 2.5%float = "2.50". Proof. reflexivity. Qed.
Example fmt_ex2 : fmt1 6%float = "6.0". Proof. reflexivity. Qed.
Example fmt_ex3 : fmt2_signed (-0.125)%float = "-0.12". Proof. reflexivity. Qed.
Example fmt_ex4 : fmt2 (1 / 3)%float = "0.33". Proof. reflexivity. Qed.
Example rel_ex : formatRelTime 1 3661 = "1h1m1s". Proof. reflexivity. Qed.

(** ** Basic facts about strings and runs *)

Lemma string_app_assoc (a b c : string) : (a ++ b) ++ c = a ++ (b ++ c).
Proof. induction a as [| x a IH]; simpl; [reflexivity | now rewrite IH]. Qed.

Lemma string_app_nil_r (a : string) : a ++ "" = a.
Proof. induction a as [| x a IH]; simpl; [reflexivity | now rewrite IH]. Qed.

Lemma run_cons (c : Call) (cs : list Call) (m : BatteryMonitor) :
  fst (run (c :: cs) m) = fst (run cs (fst (step c m))).
Proof.
  simpl. destruct (step c m) as [m1 o1]. simpl.
  destruct (run cs m1) as [m2 o2]. reflexivity.
Qed.

Lemma contains_refl (s : string) : contains s s.
Proof. exists "", "". simpl. now rewrite string_app_nil_r. Qed.

Lemma contains_app_l (t s sub : string) :
  contains s sub -> contains (t ++ s) sub.
Proof.
  intros (pre & post & ->). exists (t ++ pre), post.
  now rewrite string_app_assoc.
Qed.

Lemma contains_app_r (t s sub : string) :
  contains s sub -> contains (s ++ t) sub.
Proof.
  intros (pre & post & ->). exists pre, (post ++ t).
  now rewrite !string_app_assoc.
Qed.

Lemma contains_trans (a b c : string) :
  contains a b -> contains b c -> contains a c.
Proof.
  intros (p & q & ->) Hbc.
  apply contains_app_l, contains_app_r, Hbc.
Qed.

(** A non-empty message passed to [print] appears in the line it writes. *)
Lemma print_contains_msg (env : Env) (msg : string) (flags : Z)
    (m : BatteryMonitor) :
  msg <> "" -> contains (text (print env msg flags m)) msg.
Proof.
  intros Hmsg. unfold print. cbn [text].
  destruct (String.eqb msg "") eqn:E.
  { apply String.eqb_eq in E. contradiction. }
  destruct (back (readings m)) as [cur |].
  - apply contains_app_r, contains_app_l, contains_app_l, contains_refl.
  - apply contains_app_l, contains_app_l, contains_refl.
Qed.

(** ** C2: readings arriving while suspended are dropped *)

(** C2. While [isSuspended()] holds, [updateEnergy(energy)] returns at once:
    the state (First Reading, Sample Window, suspend-energy accumulator and
    every other field) is unchanged, no reading is admitted and nothing is
    written. *)
Theorem updateEnergy_while_suspended (env : Env) (e : float)
    (m : BatteryMonitor) (Hs : isSuspended m = true) :
  updateEnergy env e m = (m, []).
Proof. unfold updateEnergy. rewrite Hs. reflexivity. Qed.

Definition suspended_example : BatteryMonitor :=
  fst (run [CallUpdate (mkEnv 0 0) 40%float;
            CallPower (mkEnv 5 5) Suspended] init).

Lemma updateEnergy_while_suspended_witness :
  isSuspended suspended_example = true /\
  updateEnergy (mkEnv 9 9) 12%float suspended_example
    = (suspended_example, []).
Proof.
  split; [reflexivity |].
  apply updateEnergy_while_suspended. vm_compute. reflexivity.
Defined.

(** ** C3: what a battery-state transition resets *)

(** C3. [setBatteryState(Idle)] leaves First Reading, the Sample Window and
    the suspend-energy accumulator as they were; [setBatteryState(Charging)]
    and [setBatteryState(Discharging)] set First Reading to unset, the
    Sample Window to empty and the accumulator to 0, from any state. *)
Theorem setBatteryState_resets (env : Env) (m : BatteryMonitor) :
  (let m' := fst (setBatteryState env Idle m) in
   firstReading m' = firstReading m /\ readings m' = readings m /\
   totalSuspendEnergy m' = totalSuspendEnergy m) /\
  (let m' := fst (setBatteryState env Charging m) in
   firstReading m' = None /\ readings m' = [] /\
   totalSuspendEnergy m' = 0%float) /\
  (let m' := fst (setBatteryState env Discharging m) in
   firstReading m' = None /\ readings m' = [] /\
   totalSuspendEnergy m' = 0%float).
Proof. repeat split. Qed.

(** ** C7: resuming *)

(** C7. Without a recorded suspend-entry time, [setPowerState(Awake)] changes
    nothing and writes nothing.  With a recorded suspend-entry time [t], it
    clears it, sets the pending-suspend-report flag, leaves the rest of the
    state alone and writes exactly one line, which contains the formatted
    suspend duration [now - t] (in milliseconds). *)
Theorem setPowerState_Awake (env : Env) (m : BatteryMonitor) :
  match enterSuspendTime m with
  | None => setPowerState env Awake m = (m, [])
  | Some t =>
      let (m', out) := setPowerState env Awake m in
      enterSuspendTime m' = None /\ printSuspendStats m' = true /\
      firstReading m' = firstReading m /\ readings m' = readings m /\
      totalSuspendEnergy m' = totalSuspendEnergy m /\
      energyEmpty m' = energyEmpty m /\ energyFull m' = energyFull m /\
      exists l, out = [l] /\
        contains (text l)
          (formatRelTime 1000 (Z.quot (wall_now env - t) ms_per_ns))
  end.
Proof.
  unfold setPowerState. destruct (enterSuspendTime m) as [t |]; [| reflexivity].
  repeat split. eexists; split; [reflexivity |].
  eapply contains_trans; [apply print_contains_msg; discriminate |].
  apply contains_app_l, contains_app_r, contains_refl.
Qed.

(** ** C8: capacity limits *)

(** How one call changes the stored capacity limits. *)
Lemma step_limits (c : Call) (m : BatteryMonitor) :
  (energyEmpty (fst (step c m)), energyFull (fst (step c m))) =
  match c with
  | CallLimits em fu => (Some em, Some fu)
  | _ => (energyEmpty m, energyFull m)
  end.
Proof.
  destruct c as [env ps | env bs | em fu | env e]; simpl.
  - destruct ps; simpl; [destruct (enterSuspendTime m) |..]; reflexivity.
  - destruct bs; reflexivity.
  - reflexivity.
  - unfold updateEnergy. destruct (isSuspended m); [reflexivity |].
    destruct (printSuspendStats m); reflexivity.
Qed.

Lemma run_limits (cs : list Call) (m : BatteryMonitor) (em fu : float) :
  energyEmpty m = Some em -> energyFull m = Some fu ->
  (energyEmpty (fst (run cs m)), energyFull (fst (run cs m))) =
  (Some (fst (last_limits cs (em, fu))), Some (snd (last_limits cs (em, fu)))).
Proof.
  revert m em fu. induction cs as [| c cs IH]; intros m em fu He Hf.
  - simpl. now rewrite He, Hf.
  - rewrite run_cons.
    pose proof (f_equal fst (step_limits c m)) as H1.
    pose proof (f_equal snd (step_limits c m)) as H2.
    cbn [fst snd] in H1, H2.
    destruct c as [env ps | env bs | em' fu' | env e];
      cbn [last_limits]; apply IH; cbv beta iota in H1, H2;
      cbn [fst snd] in H1, H2; congruence.
Qed.

(** C8. [setBatteryLimits(empty, full)] stores both values for every pair,
    with no check relating them, and touches nothing else; no
    [setBatteryState] call changes the stored pair; after it, whatever calls
    follow, the stored pair is the one of the latest [setBatteryLimits]
    call. *)
Theorem setBatteryLimits_overwrite :
  (forall (em fu : float) (m : BatteryMonitor),
     let m' := setBatteryLimits em fu m in
     energyEmpty m' = Some em /\ energyFull m' = Some fu /\
     firstReading m' = firstReading m /\ readings m' = readings m /\
     printSuspendStats m' = printSuspendStats m /\
     enterSuspendTime m' = enterSuspendTime m /\
     totalSuspendEnergy m' = totalSuspendEnergy m) /\
  (forall (env : Env) (bs : BatteryState) (m : BatteryMonitor),
     energyEmpty (fst (setBatteryState env bs m)) = energyEmpty m /\
     energyFull (fst (setBatteryState env bs m)) = energyFull m) /\
  (forall (cs : list Call) (em fu : float) (m : BatteryMonitor),
     let m' := fst (run cs (setBatteryLimits em fu m)) in
     energyEmpty m' = Some (fst (last_limits cs (em, fu))) /\
     energyFull m' = Some (snd (last_limits cs (em, fu)))).
Proof.
  split; [| split].
  - intros em fu m. repeat split.
  - intros env bs m. pose proof (step_limits (CallBattery env bs) m) as H.
    pose proof (f_equal fst H) as H1. pose proof (f_equal snd H) as H2.
    simpl in H1, H2. now split.
  - intros cs em fu m. simpl.
    pose proof (run_limits cs (setBatteryLimits em fu m) em fu
                  eq_refl eq_refl) as H.
    pose proof (f_equal fst H) as H1. pose proof (f_equal snd H) as H2.
    simpl in H1, H2. now split.
Qed.

(** ** C4: the Sample Window *)

Definition reading_of (env : Env) (e : float) : Reading :=
  mkReading (wall_now env) (mono_now env) e.

Definition update_calls (ups : list (Env * float)) : list Call :=
  map (fun '(env, e) => CallUpdate env e) ups.

Definition update_readings (ups : list (Env * float)) : list Reading :=
  map (fun '(env, e) => reading_of env e) ups.

Lemma lastn_app_long {A} (n : nat) (a x : list A) :
  (n <= List.length x)%nat -> lastn n (a ++ x) = lastn n x.
Proof.
  intros Hn. unfold lastn. rewrite length_app, skipn_app.
  rewrite skipn_all2 by lia. simpl. f_equal. lia.
Qed.

Lemma lastn_lastn_app {A} (n : nat) (l r : list A) :
  lastn n (lastn n l ++ r) = lastn n (l ++ r).
Proof.
  destruct (Nat.le_gt_cases (List.length l) n) as [Hle | Hgt].
  - unfold lastn at 2. replace (List.length l - n) with 0 by lia. reflexivity.
  - rewrite <- (firstn_skipn (List.length l - n) l) at 2.
    rewrite <- app_assoc. symmetry. apply lastn_app_long.
    unfold lastn. rewrite length_app, length_skipn. lia.
Qed.

Lemma push_reading_lastn (rs : list Reading) (r : Reading) :
  (List.length rs <= 2)%nat -> push_reading rs r = lastn 2 (rs ++ [r]).
Proof.
  intros H. destruct rs as [| a [| b [| c rs]]]; simpl in H; try lia;
    reflexivity.
Qed.

Lemma push_reading_length (rs : list Reading) (r : Reading) :
  (List.length rs <= 2)%nat -> (List.length (push_reading rs r) <= 2)%nat.
Proof.
  intros H. destruct rs as [| a [| b [| c rs]]]; simpl in H; try lia;
    simpl; lia.
Qed.

(** An admitted reading is pushed into the window; suspension is unchanged. *)
Lemma updateEnergy_admitted (env : Env) (e : float) (m : BatteryMonitor) :
  isSuspended m = false ->
  readings (fst (updateEnergy env e m)) =
    push_reading (readings m) (reading_of env e) /\
  isSuspended (fst (updateEnergy env e m)) = false.
Proof.
  intros Hs. unfold updateEnergy. rewrite Hs.
  destruct (printSuspendStats m); simpl; unfold isSuspended in *; auto.
Qed.

Lemma step_window_bound (c : Call) (m : BatteryMonitor) :
  (List.length (readings m) <= 2)%nat ->
  (List.length (readings (fst (step c m))) <= 2)%nat.
Proof.
  intros H. destruct c as [env ps | env bs | em fu | env e]; simpl.
  - destruct ps; simpl; [destruct (enterSuspendTime m) |..]; simpl; assumption.
  - destruct bs; simpl; [lia | lia | assumption].
  - assumption.
  - destruct (isSuspended m) eqn:Hs.
    + unfold updateEnergy. rewrite Hs. assumption.
    + destruct (updateEnergy_admitted env e m Hs) as [-> _].
      now apply push_reading_length.
Qed.

Lemma reachable_window_bound (m : BatteryMonitor) :
  reachable m -> (List.length (readings m) <= 2)%nat.
Proof.
  induction 1 as [| c m _ IH]; [simpl; lia |].
  now apply step_window_bound.
Qed.

Lemma run_updates_window (ups : list (Env * float)) (m : BatteryMonitor) :
  (List.length (readings m) <= 2)%nat -> isSuspended m = false ->
  readings (fst (run (update_calls ups) m)) =
    lastn 2 (readings m ++ update_readings ups).
Proof.
  revert m. induction ups as [| [env e] ups IH]; intros m Hl Hs.
  - simpl. rewrite app_nil_r. unfold lastn.
    replace (List.length (readings m) - 2) with 0 by lia. reflexivity.
  - simpl update_calls. rewrite run_cons. simpl step.
    destruct (updateEnergy_admitted env e m Hs) as [Hr Hs'].
    rewrite IH; [| rewrite Hr; now apply push_reading_length | exact Hs'].
    rewrite Hr, push_reading_lastn by exact Hl.
    rewrite lastn_lastn_app, <- app_assoc. reflexivity.
Qed.

(** C4. In every state reached by any sequence of entry-point calls the
    Sample Window holds at most 2 readings; from such a state, when not
    suspended, an admitted reading is appended and the front trimmed once
    the window exceeds 2 entries, and after any sequence of [updateEnergy]
    calls the window is the last (up to) two of the readings held before
    followed by the newly admitted ones, in arrival order. *)
Theorem sample_window_invariant (m : BatteryMonitor) (Hr : reachable m) :
  (List.length (readings m) <= 2)%nat /\
  (isSuspended m = false ->
   (forall (env : Env) (e : float),
      readings (fst (updateEnergy env e m)) =
        let rs1 := (readings m ++ [reading_of env e])%list in
        if (2 <? List.length rs1)%nat then tl rs1 else rs1) /\
   (forall ups : list (Env * float),
      readings (fst (run (update_calls ups) m)) =
        lastn 2 (readings m ++ update_readings ups))).
Proof.
  pose proof (reachable_window_bound m Hr) as Hl.
  split; [exact Hl |]. intros Hs. split.
  - intros env e. now destruct (updateEnergy_admitted env e m Hs) as [-> _].
  - intros ups. now apply run_updates_window.
Qed.

Definition window_example_updates : list (Env * float) :=
  [(mkEnv 0 0, 50%float); (mkEnv 1000 1000, 49%float);
   (mkEnv 2000 2000, 48%float)].

Lemma sample_window_invariant_witness :
  reachable init /\ isSuspended init = false /\
  readings (fst (run (update_calls window_example_updates) init)) =
    [reading_of (mkEnv 1000 1000) 49%float;
     reading_of (mkEnv 2000 2000) 48%float].
Proof.
  split; [constructor |]. split; [reflexivity |].
  destruct (sample_window_invariant init reachable_init) as [_ H].
  destruct (H eq_refl) as [_ H2]. rewrite H2. reflexivity.
Defined.

(** ** C1: suspend-attributed energy *)

(** The entry before a pushed reading is the window's previous last one. *)
Lemma second_last_push (rs : list Reading) (r : Reading) :
  second_last (push_reading rs r) = back rs.
Proof.
  unfold push_reading, second_last, back.
  destruct (2 <? List.length (rs ++ [r]))%nat eqn:E.
  - apply Nat.ltb_lt in E. rewrite length_app in E. simpl in E.
    destruct rs as [| a [| b rs]]; simpl in E; try lia.
    simpl. rewrite !rev_app_distr. simpl.
    destruct (rev rs ++ [b])%list eqn:Hb; [destruct (rev rs); discriminate |].
    reflexivity.
  - rewrite rev_app_distr. simpl. reflexivity.
Qed.

(** C1. When the pending-suspend-report flag is set (only a resume sets it)
    and the next reading is admitted leaving at least 2 entries in the
    Sample Window, the suspend-energy accumulator becomes its old value plus
    (that reading's energy minus the entry just before it in the window,
    which is the window's previous last entry), with the program's double
    arithmetic; and whenever a summary shows the average rate, its energy
    term is (current energy - First Reading's energy - accumulator), over
    the monotonic time since First Reading. *)
Theorem suspend_delta_excluded_from_average :
  (forall (env : Env) (e : float) (m : BatteryMonitor),
     printSuspendStats m = true -> isSuspended m = false ->
     (1 < List.length (readings (fst (updateEnergy env e m))))%nat ->
     exists p,
       second_last (readings (fst (updateEnergy env e m))) = Some p /\
       back (readings m) = Some p /\
       totalSuspendEnergy (fst (updateEnergy env e m)) =
         (totalSuspendEnergy m + (e - energy p))%float) /\
  (forall (env : Env) (msg : string) (flags : Z) (m : BatteryMonitor)
          (f cur : Reading),
     firstReading m = Some f -> back (readings m) = Some cur ->
     has_stat flags Stat_averageRate = true ->
     (1 < List.length (readings m))%nat ->
     exists pre,
       text (print env msg flags m) =
         pre ++ " / Avg " ++
         printRate m (energy cur - energy f - totalSuspendEnergy m)%float
           (Z.quot (relTime cur - relTime f) ms_per_ns)).
Proof.
  split.
  - intros env e m Hflag Hs Hlen.
    pose proof (second_last_push (readings m) (reading_of env e)) as Hp.
    unfold updateEnergy in *. rewrite Hs, Hflag in *. simpl in *.
    apply Nat.ltb_lt in Hlen as Hlen'. rewrite Hlen'.
    unfold reading_of in Hp.
    destruct (second_last (push_reading (readings m)
                (mkReading (wall_now env) (mono_now env) e))) as [p |] eqn:E.
    + exists p. split; [reflexivity | split; [congruence | reflexivity]].
    + exfalso. unfold second_last in E.
      destruct (rev (push_reading (readings m)
                       (mkReading (wall_now env) (mono_now env) e)))
        as [| x [| y l]] eqn:R; try discriminate;
        apply (f_equal (@List.length Reading)) in R; rewrite length_rev in R;
        simpl in R; lia.
  - intros env msg flags m f cur Hf Hb Hflag Hlen.
    unfold print. rewrite Hb. cbn [text].
    exists ((print_elapsed env m ++ (if String.eqb msg "" then "" else " - " ++ msg))
            ++ print_energy flags m cur
            ++ print_relEnergy flags m cur (second_last (readings m))
            ++ print_rate flags m cur (second_last (readings m))).
    unfold print_averageRate. rewrite Hf, Hflag.
    apply Nat.ltb_lt in Hlen. rewrite Hlen. simpl.
    rewrite !string_app_assoc. reflexivity.
Qed.

Definition resumed_example : BatteryMonitor :=
  fst (run [CallUpdate (mkEnv 0 0) 50%float;
            CallPower (mkEnv 0 0) Suspended;
            CallPower (mkEnv 90000000000 0) Awake] init).

Definition averaged_example : BatteryMonitor :=
  fst (run [CallUpdate (mkEnv 95000000000 5000000000) 49%float;
            CallUpdate (mkEnv 3695000000000 3605000000000) 46%float]
           resumed_example).

Lemma suspend_delta_excluded_from_average_witness :
  (exists p,
     second_last (readings (fst (updateEnergy (mkEnv 95000000000 5000000000)
                                  49%float resumed_example))) = Some p /\
     back (readings resumed_example) = Some p /\
     totalSuspendEnergy (fst (updateEnergy (mkEnv 95000000000 5000000000)
                               49%float resumed_example)) =
       (totalSuspendEnergy resumed_example + (49 - energy p))%float) /\
  (exists pre,
     text (print (mkEnv 3695000000000 3605000000000) "" 6%Z averaged_example)
     = pre ++ " / Avg " ++
       printRate averaged_example
         (46 - 50 - totalSuspendEnergy averaged_example)%float
         (Z.quot (3605000000000 - 0) ms_per_ns)).
Proof.
  destruct suspend_delta_excluded_from_average as [H1 H2]. split.
  - apply H1; vm_compute; reflexivity.
  - apply (H2 _ _ _ _ (reading_of (mkEnv 0 0) 50%float)
              (reading_of (mkEnv 3695000000000 3605000000000) 46%float));
      vm_compute; reflexivity.
Defined.

Example average_example_line :
  totalSuspendEnergy averaged_example = (-1)%float /\
  text (print (mkEnv 3695000000000 3605000000000) "" 6%Z averaged_example)
    = " (+1h5s) / Rate -3.00 W / Avg -3.00 W".
Proof. split; vm_compute; reflexivity. Qed.

(** ** C10: a battery-state reset inside a suspend cycle *)

(** A suspend is still pending or already reported-to-be. *)
Definition report_pending (m : BatteryMonitor) : Prop :=
  isSuspended m = true \/ printSuspendStats m = true.

(** The state a Charging or Discharging reset leaves behind. *)
Definition window_cleared (m : BatteryMonitor) : Prop :=
  readings m = [] /\ totalSuspendEnergy m = 0%float.

Definition admits_nothing (c : Call) (m : BatteryMonitor) : Prop :=
  match c with CallUpdate _ _ => isSuspended m = true | _ => True end.

Lemma step_report_pending (c : Call) (m : BatteryMonitor) :
  admits_nothing c m -> report_pending m -> report_pending (fst (step c m)).
Proof.
  intros Hc Hp. destruct c as [env ps | env bs | em fu | env e]; simpl.
  - destruct ps; simpl.
    + destruct (enterSuspendTime m) eqn:E; simpl; [| exact Hp].
      right. reflexivity.
    + left. reflexivity.
    + exact Hp.
  - destruct bs; exact Hp.
  - exact Hp.
  - simpl in Hc. unfold updateEnergy. rewrite Hc. exact Hp.
Qed.

Lemma step_window_cleared (c : Call) (m : BatteryMonitor) :
  admits_nothing c m -> window_cleared m -> window_cleared (fst (step c m)).
Proof.
  intros Hc Hw. destruct c as [env ps | env bs | em fu | env e]; simpl.
  - destruct ps; simpl; [| exact Hw | exact Hw].
    destruct (enterSuspendTime m); exact Hw.
  - destruct bs; [split; reflexivity .. | exact Hw].
  - exact Hw.
  - simpl in Hc. unfold updateEnergy. rewrite Hc. exact Hw.
Qed.

Lemma run_no_admit_preserves (P : BatteryMonitor -> Prop)
    (Hstep : forall c m, admits_nothing c m -> P m -> P (fst (step c m)))
    (cs : list Call) (m : BatteryMonitor) :
  no_admit cs m -> P m -> P (fst (run cs m)).
Proof.
  revert m. induction cs as [| c cs IH]; intros m Hna Hp; [exact Hp |].
  destruct Hna as [Hc Hna]. rewrite run_cons. apply IH; [exact Hna |].
  apply Hstep; [destruct c; exact Hc | exact Hp].
Qed.

(** C10. A Charging or Discharging reset keeps the pending-suspend-report
    flag and the suspend-entry time.  So in a run where such a reset comes
    after a suspend and before the first reading admitted after the resume
    (any calls admitting no reading around it), that reading still writes
    the "Sleep energy use" summary (with no delta, no rate) and consumes the
    flag, while the window holds only that reading and the accumulator
    keeps its value, 0: the delta across the suspend is not recorded. *)
Theorem reset_keeps_suspend_report :
  (forall (env : Env) (m : BatteryMonitor),
     printSuspendStats (fst (setBatteryState env Charging m))
       = printSuspendStats m /\
     enterSuspendTime (fst (setBatteryState env Charging m))
       = enterSuspendTime m /\
     printSuspendStats (fst (setBatteryState env Discharging m))
       = printSuspendStats m /\
     enterSuspendTime (fst (setBatteryState env Discharging m))
       = enterSuspendTime m) /\
  (forall (m : BatteryMonitor) (envS envR envU : Env) (bs : BatteryState)
          (cs1 cs2 : list Call) (e : float),
     bs <> Idle ->
     let m1 := fst (setPowerState envS Suspended m) in
     no_admit cs1 m1 ->
     let m3 := fst (setBatteryState envR bs (fst (run cs1 m1))) in
     no_admit cs2 m3 ->
     let m4 := fst (run cs2 m3) in
     isSuspended m4 = false ->
     let (m5, out) := updateEnergy envU e m4 in
     printSuspendStats m4 = true /\ printSuspendStats m5 = false /\
     readings m5 = [reading_of envU e] /\
     totalSuspendEnergy m5 = totalSuspendEnergy m4 /\
     totalSuspendEnergy m5 = 0%float /\
     exists l, out = [l] /\
       text l = print_elapsed envU m5 ++ " - Sleep energy use").
Proof.
  split; [intros env m; repeat split |].
  intros m envS envR envU bs cs1 cs2 e Hbs m1 Hna1 m3 Hna2 m4 Hs.
  assert (Hp : report_pending m4).
  { apply (run_no_admit_preserves _ step_report_pending); [exact Hna2 |].
    pose proof (step_report_pending (CallBattery envR bs)
                  (fst (run cs1 m1)) I) as H. apply H.
    apply (run_no_admit_preserves _ step_report_pending); [exact Hna1 |].
    left. reflexivity. }
  assert (Hw : window_cleared m4).
  { apply (run_no_admit_preserves _ step_window_cleared); [exact Hna2 |].
    unfold m3, window_cleared.
    destruct bs; [split; reflexivity .. | contradiction]. }
  destruct Hp as [Hp | Hflag]; [congruence |].
  destruct Hw as [Hr Ht].
  unfold updateEnergy. rewrite Hs, Hflag, Hr. simpl.
  repeat split; [congruence |].
  eexists; split; [reflexivity |]. unfold print. simpl.
  unfold print_averageRate, print_elapsed. simpl.
  destruct (firstReading m4); simpl; rewrite ?string_app_nil_r; reflexivity.
Qed.

Definition reset_example_start : BatteryMonitor :=
  fst (run [CallUpdate (mkEnv 0 0) 50%float] init).

Lemma reset_keeps_suspend_report_witness :
  let m1 := fst (setPowerState (mkEnv 10 10) Suspended reset_example_start) in
  let m3 := fst (setBatteryState (mkEnv 30 30) Charging
                   (fst (run [CallPower (mkEnv 20 20) Awake] m1))) in
  let m4 := fst (run [] m3) in
  let (m5, out) := updateEnergy (mkEnv 40 40) 47%float m4 in
  printSuspendStats m4 = true /\ printSuspendStats m5 = false /\
  readings m5 = [reading_of (mkEnv 40 40) 47%float] /\
  totalSuspendEnergy m5 = totalSuspendEnergy m4 /\
  totalSuspendEnergy m5 = 0%float /\
  exists l, out = [l] /\
    text l = print_elapsed (mkEnv 40 40) m5 ++ " - Sleep energy use".
Proof.
  destruct reset_keeps_suspend_report as [_ H].
  apply (H reset_example_start (mkEnv 10 10) (mkEnv 30 30) (mkEnv 40 40)
           Charging [CallPower (mkEnv 20 20) Awake] [] 47%float).
  - discriminate.
  - vm_compute. auto.
  - vm_compute. auto.
  - vm_compute. reflexivity.
Defined.

(** ** C5: the rate formula *)

Definition limits_example : BatteryMonitor := setBatteryLimits 0 100 init.

(** C5. [printRate(energyDiff, timeDiff)] writes the watts
    [energyDiff / (timeDiff / 3600000)] to 2 decimals followed by " W"; when
    both capacity limits are set it adds the percent per hour
    [(100 * energyDiff / (full - empty)) / hours] to 1 decimal with "%/hr"
    when its absolute value is at least 1.0, and otherwise that value times
    24 to 1 decimal with "%/day".  With limits 0 and 100, +2.5 Wh over one
    hour gives "2.50 W (2.5%/hr)" and over ten hours "0.25 W (6.0%/day)";
    in a summary line the first shows as " / Rate 2.50 W (2.5%/hr)". *)
Theorem printRate_formula :
  (forall (m : BatteryMonitor) (energyDiff : float) (timeDiff : Z),
     printRate m energyDiff timeDiff =
       let hours := (Z_to_double timeDiff / 3600000)%float in
       fmt2 (energyDiff / hours)%float ++ " W" ++
       match energyEmpty m, energyFull m with
       | Some empty, Some full =>
           let pph := ((100 * energyDiff / (full - empty)) / hours)%float in
           if (1 <=? abs pph)%float then " (" ++ fmt1 pph ++ "%/hr)"
           else " (" ++ fmt1 (pph * 24)%float ++ "%/day)"
       | _, _ => ""
       end) /\
  printRate limits_example 2.5 3600000 = "2.50 W (2.5%/hr)" /\
  printRate limits_example 2.5 36000000 = "0.25 W (6.0%/day)" /\
  snd (run [CallLimits 0 100; CallUpdate (mkEnv 0 0) 50;
            CallUpdate (mkEnv 3600000000000 3600000000000) 52.5] init)
    = [mkLine 0 " - 50.00 Wh (50.00%)";
       mkLine 3600 (" (+1h) - 52.50 Wh (52.50%) / Rate 2.50 W (2.5%/hr)"
                    ++ " / Avg 2.50 W (2.5%/hr)")].
Proof.
  split; [intros m energyDiff timeDiff; reflexivity |].
  split; [vm_compute; reflexivity |].
  split; vm_compute; reflexivity.
Qed.

(** ** C6: the duration formatter *)

Lemma rel_parts_nonneg (x : Z) :
  (0 <= x)%Z ->
  (0 <= Z.quot x 3600 /\ 0 <= Z.quot x 60 - Z.quot x 3600 * 60 /\
   0 <= x - Z.quot x 3600 * 3600 - (Z.quot x 60 - Z.quot x 3600 * 60) * 60)%Z.
Proof.
  intros Hx. rewrite !Z.quot_div_nonneg by lia.
  replace (x / 3600)%Z with (x / 60 / 60)%Z
    by (rewrite Z.div_div by lia; reflexivity).
  pose proof (Z.div_mod x 60 ltac:(lia)).
  pose proof (Z.mod_pos_bound x 60 ltac:(lia)).
  pose proof (Z.div_pos x 60 Hx ltac:(lia)).
  pose proof (Z.div_mod (x / 60) 60 ltac:(lia)).
  pose proof (Z.mod_pos_bound (x / 60) 60 ltac:(lia)).
  pose proof (Z.div_pos (x / 60) 60 ltac:(lia) ltac:(lia)).
  lia.
Qed.

Lemma rel_parts_neg (x : Z) :
  (x < 0)%Z ->
  (Z.quot x 3600 <= 0 /\ Z.quot x 60 - Z.quot x 3600 * 60 <= 0 /\
   x - Z.quot x 3600 * 3600 - (Z.quot x 60 - Z.quot x 3600 * 60) * 60 <= 0)%Z.
Proof.
  intros Hx. replace x with (- (- x))%Z by lia.
  rewrite !(Z.quot_opp_l (- x)) by lia.
  destruct (rel_parts_nonneg (- x) ltac:(lia)) as (H1 & H2 & H3). lia.
Qed.

Lemma gtb_zero_nonneg (z : Z) : (0 <= z)%Z -> (z >? 0)%Z = negb (z =? 0)%Z.
Proof.
  intros H. rewrite Z.gtb_ltb.
  destruct (Z.ltb_spec 0 z), (Z.eqb_spec z 0); simpl; lia.
Qed.

Lemma gtb_zero_nonpos (z : Z) : (z <= 0)%Z -> (z >? 0)%Z = false.
Proof. intros H. rewrite Z.gtb_ltb. apply Z.ltb_ge. exact H. Qed.

(** C6, as the spec words it, fails for negative durations: a nonzero
    count is written only when it is positive, so -45 s gives "" where the
    spec's reading gives "-45s". *)
Lemma formatRelTime_negative_counterexample :
  formatRelTime 1 (-45) = "" /\ formatRelTime_as_specified 1 (-45) = "-45s".
Proof. split; reflexivity. Qed.

(** C6 (amended). For every duration whose whole-second truncation is
    non-negative, [formatRelTime] writes the nonzero ones of hours, minutes
    and remaining seconds as "<N>h", "<N>m", "<N>s" in that order with no
    separator ("" for zero); a duration truncating to a negative number of
    seconds gives "".  E.g. 0 s gives "", 3661 s "1h1m1s", 90 s "1m30s",
    45 s "45s" (and 90000 ms "1m30s"). *)
Theorem formatRelTime_decomposition :
  (forall ticks_per_sec d : Z,
     formatRelTime ticks_per_sec d =
       if (Z.quot d ticks_per_sec <? 0)%Z then ""
       else formatRelTime_as_specified ticks_per_sec d) /\
  formatRelTime 1 0 = "" /\ formatRelTime 1 3661 = "1h1m1s" /\
  formatRelTime 1 90 = "1m30s" /\ formatRelTime 1 45 = "45s" /\
  formatRelTime 1000 90000 = "1m30s".
Proof.
  split; [| repeat split; reflexivity].
  intros tps d. unfold formatRelTime, formatRelTime_as_specified,
    formatRelTime_secs. cbv zeta.
  remember (Z.quot d tps) as s eqn:Hs. clear Hs.
  destruct (Z.ltb_spec s 0) as [Hneg | Hnn].
  - destruct (rel_parts_neg s Hneg) as (H1 & H2 & H3).
    replace (s =? 0)%Z with false by (symmetry; apply Z.eqb_neq; lia).
    rewrite !gtb_zero_nonpos by assumption. reflexivity.
  - destruct (Z.eqb_spec s 0) as [-> | Hnz]; [reflexivity |].
    destruct (rel_parts_nonneg s Hnn) as (H1 & H2 & H3).
    rewrite !gtb_zero_nonneg by assumption.
    destruct (Z.quot s 3600 =? 0)%Z, (Z.quot s 60 - Z.quot s 3600 * 60 =? 0)%Z,
      (s - Z.quot s 3600 * 3600 - (Z.quot s 60 - Z.quot s 3600 * 60) * 60 =? 0)%Z;
      simpl; rewrite ?string_app_nil_r, ?string_app_assoc; reflexivity.
Qed.

(** ** C9: translating property notifications *)

(** Every value has the type UPower gives it: [State] a [uint32],
    [EnergyEmpty], [EnergyFull] and [Energy] doubles. *)
Definition prop_well_typed (kv : string * UPowerDeviceProperty) : bool :=
  let (k, v) := kv in
  if String.eqb k "State" then
    match v with PUint32 _ => true | _ => false end
  else if String.eqb k "EnergyEmpty" || String.eqb k "EnergyFull"
          || String.eqb k "Energy" then
    match v with PDouble _ => true | _ => false end
  else true.

Definition well_typed_props (props : UPowerDeviceProperties) : bool :=
  forallb prop_well_typed props.

Lemma find_prop_in (k : string) (props : UPowerDeviceProperties)
    (v : UPowerDeviceProperty) :
  find_prop k props = Some v -> In (k, v) props.
Proof.
  induction props as [| [k' v'] props IH]; simpl; [discriminate |].
  destruct (String.eqb_spec k' k) as [-> | _].
  - intros [= ->]. left. reflexivity.
  - intros H. right. exact (IH H).
Qed.

Lemma find_prop_typed (k : string) (props : UPowerDeviceProperties)
    (v : UPowerDeviceProperty) :
  well_typed_props props = true -> find_prop k props = Some v ->
  prop_well_typed (k, v) = true.
Proof.
  intros Hw Hf. unfold well_typed_props in Hw. rewrite forallb_forall in Hw.
  exact (Hw _ (find_prop_in k props v Hf)).
Qed.

Definition notification_energy_first : UPowerDeviceProperties :=
  [("Energy", PDouble 50); ("State", PUint32 1)].

(** C9, as stated, fails on the order: a notification carrying [Energy]
    before [State] still has [setBatteryState] forwarded first. *)
Lemma processBatteryProperties_order_counterexample :
  map fst notification_energy_first = ["Energy"; "State"] /\
  processBatteryProperties notification_energy_first
    = Completed [FwdBatteryState Charging; FwdEnergy 50].
Proof. split; reflexivity. Qed.

(** C9 (amended). For a well-typed property mapping the translation makes,
    whatever the order of the notification, first the [setBatteryState]
    call of the [State] code (Charging for 1, Discharging for 2, Idle for 4
    and 5, none otherwise), then [setBatteryLimits(EnergyEmpty, EnergyFull)]
    when both are present, then [updateEnergy(Energy)] when present. *)
Theorem processBatteryProperties_fixed_order (props : UPowerDeviceProperties)
    (Hw : well_typed_props props = true) :
  processBatteryProperties props =
    Completed
      ((match find_prop "State" props with
        | Some (PUint32 n) =>
            if (n =? 1)%Z then [FwdBatteryState Charging]
            else if (n =? 2)%Z then [FwdBatteryState Discharging]
            else if (n =? 4)%Z || (n =? 5)%Z then [FwdBatteryState Idle]
            else []
        | _ => []
        end) ++
       (match find_prop "EnergyEmpty" props, find_prop "EnergyFull" props with
        | Some (PDouble em), Some (PDouble fu) => [FwdBatteryLimits em fu]
        | _, _ => []
        end) ++
       (match find_prop "Energy" props with
        | Some (PDouble e) => [FwdEnergy e]
        | _ => []
        end))%list.
Proof.
  pose proof (find_prop_typed "State" props) as TS.
  pose proof (find_prop_typed "EnergyEmpty" props) as TE.
  pose proof (find_prop_typed "EnergyFull" props) as TF.
  pose proof (find_prop_typed "Energy" props) as TN.
  unfold processBatteryProperties, state_step, limits_step, energy_step.
  destruct (find_prop "State" props) as [vs |] eqn:ES;
    [specialize (TS vs Hw eq_refl); destruct vs; try discriminate TS |].
  all: destruct (find_prop "EnergyEmpty" props) as [ve |] eqn:EE;
    [specialize (TE ve Hw eq_refl); destruct ve; try discriminate TE |].
  all: destruct (find_prop "EnergyFull" props) as [vf |] eqn:EF;
    try (specialize (TF vf Hw eq_refl); destruct vf; try discriminate TF).
  all: destruct (find_prop "Energy" props) as [vn |] eqn:EN;
    try (specialize (TN vn Hw eq_refl); destruct vn; try discriminate TN).
  all: simpl; reflexivity.
Qed.

Lemma processBatteryProperties_fixed_order_witness :
  well_typed_props notification_energy_first = true /\
  processBatteryProperties notification_energy_first =
    Completed [FwdBatteryState Charging; FwdEnergy 50].
Proof.
  split; [reflexivity |].
  rewrite (processBatteryProperties_fixed_order notification_energy_first
             eq_refl).
  reflexivity.
Defined.

(** * Further properties of the code *)

(** ** The duration formatter *)

Definition unit_token (n : Z) (u : string) : string :=
  if (n =? 0)%Z then "" else Z_to_dec n ++ u.

Lemma rel_parts_bounds (x : Z) :
  (0 <= x)%Z ->
  (Z.quot x 60 - Z.quot x 3600 * 60 < 60 /\
   x - Z.quot x 3600 * 3600 - (Z.quot x 60 - Z.quot x 3600 * 60) * 60 < 60)%Z.
Proof.
  intros Hx. rewrite !Z.quot_div_nonneg by lia.
  replace (x / 3600)%Z with (x / 60 / 60)%Z
    by (rewrite Z.div_div by lia; reflexivity).
  pose proof (Z.div_mod x 60 ltac:(lia)).
  pose proof (Z.mod_pos_bound x 60 ltac:(lia)).
  pose proof (Z.div_mod (x / 60) 60 ltac:(lia)).
  pose proof (Z.mod_pos_bound (x / 60) 60 ltac:(lia)).
  lia.
Qed.

Lemma string_app_nonempty (a b : string) : b <> "" -> a ++ b <> "".
Proof. destruct a; simpl; [auto | discriminate]. Qed.

Lemma formatRelTime_secs_nonpos (s : Z) :
  (s <= 0)%Z -> formatRelTime_secs s = "".
Proof.
  intros H. unfold formatRelTime_secs. cbv zeta.
  destruct (Z.eqb_spec s 0) as [_ | Hnz]; [reflexivity |].
  destruct (rel_parts_neg s ltac:(lia)) as (H1 & H2 & H3).
  rewrite !gtb_zero_nonpos by assumption. reflexivity.
Qed.

Lemma formatRelTime_secs_pos (s : Z) :
  (0 < s)%Z -> formatRelTime_secs s <> "".
Proof.
  intros H. unfold formatRelTime_secs. cbv zeta.
  replace (s =? 0)%Z with false by (symmetry; apply Z.eqb_neq; lia).
  destruct (rel_parts_nonneg s ltac:(lia)) as (H1 & H2 & H3).
  set (h := Z.quot s 3600) in *.
  set (mi := (Z.quot s 60 - h * 60)%Z) in *.
  destruct (Z.gtb_spec (s - h * 3600 - mi * 60) 0) as [Hse | Hse].
  - apply string_app_nonempty, string_app_nonempty. discriminate.
  - destruct (Z.gtb_spec mi 0) as [Hm | Hm].
    + apply string_app_nonempty, string_app_nonempty. discriminate.
    + destruct (Z.gtb_spec h 0) as [Hh | Hh].
      * apply string_app_nonempty. discriminate.
      * exfalso. lia.
Qed.

(** [formatRelTime] returns the empty string exactly when the duration,
    truncated to whole seconds, is not positive. *)
Theorem formatRelTime_empty_iff (ticks_per_sec d : Z) :
  formatRelTime ticks_per_sec d = "" <-> (Z.quot d ticks_per_sec <= 0)%Z.
Proof.
  unfold formatRelTime. split.
  - intros H. destruct (Z.le_gt_cases (Z.quot d ticks_per_sec) 0) as [Hle | Hgt];
      [exact Hle |].
    exfalso. exact (formatRelTime_secs_pos _ Hgt H).
  - apply formatRelTime_secs_nonpos.
Qed.

(** For a non-negative second count the formatter writes hours, minutes
    below 60 and seconds below 60 that add back up to the count, each as a
    token only when nonzero. *)
Theorem formatRelTime_secs_recompose (s : Z) (Hs : (0 <= s)%Z) :
  exists h mi se : Z,
    (0 <= h /\ 0 <= mi < 60 /\ 0 <= se < 60)%Z /\
    s = (3600 * h + 60 * mi + se)%Z /\
    formatRelTime_secs s = unit_token h "h" ++ unit_token mi "m" ++
                           unit_token se "s".
Proof.
  destruct (rel_parts_nonneg s Hs) as (H1 & H2 & H3).
  destruct (rel_parts_bounds s Hs) as (H4 & H5).
  exists (Z.quot s 3600), (Z.quot s 60 - Z.quot s 3600 * 60)%Z,
         (s - Z.quot s 3600 * 3600 - (Z.quot s 60 - Z.quot s 3600 * 60) * 60)%Z.
  split; [lia | split; [lia |]].
  unfold formatRelTime_secs, unit_token. cbv zeta.
  destruct (Z.eqb_spec s 0) as [-> | Hnz]; [reflexivity |].
  rewrite !gtb_zero_nonneg by assumption.
  destruct (Z.quot s 3600 =? 0)%Z, (Z.quot s 60 - Z.quot s 3600 * 60 =? 0)%Z,
    (s - Z.quot s 3600 * 3600 - (Z.quot s 60 - Z.quot s 3600 * 60) * 60 =? 0)%Z;
    simpl; rewrite ?string_app_nil_r, ?string_app_assoc; reflexivity.
Qed.

Lemma formatRelTime_secs_recompose_witness :
  exists h mi se : Z,
    (0 <= h /\ 0 <= mi < 60 /\ 0 <= se < 60)%Z /\
    (7384 = 3600 * h + 60 * mi + se)%Z /\
    formatRelTime_secs 7384 = unit_token h "h" ++ unit_token mi "m" ++
                              unit_token se "s".
Proof. apply formatRelTime_secs_recompose. lia. Defined.

(** The "(+elapsed)" part of a line is present exactly when a First Reading
    exists and at least one whole second of monotonic time has passed since
    it. *)
Theorem print_elapsed_shown (env : Env) (m : BatteryMonitor) :
  print_elapsed env m <> "" <->
  exists f, firstReading m = Some f /\
            (ns_per_s <= mono_now env - relTime f)%Z.
Proof.
  unfold print_elapsed. destruct (firstReading m) as [f |].
  - set (x := (mono_now env - relTime f)%Z).
    pose proof (formatRelTime_empty_iff ns_per_s x) as Hiff.
    assert (Hq : (Z.quot x ns_per_s <= 0)%Z <-> (x < ns_per_s)%Z).
    { unfold ns_per_s. split; intros H.
      - destruct (Z.lt_ge_cases x 1000000000) as [| Hge]; [assumption |].
        pose proof (Z.quot_le_mono 1000000000 x 1000000000 ltac:(lia) Hge).
        rewrite Z.quot_same in * by lia. lia.
      - destruct (Z.lt_ge_cases x 0).
        + pose proof (Z.quot_le_mono x 0 1000000000 ltac:(lia) ltac:(lia)).
          rewrite Z.quot_0_l in * by lia. lia.
        + rewrite Z.quot_small by lia. lia. }
    destruct (String.eqb_spec (formatRelTime ns_per_s x) "") as [E | E].
    + split; [intros H; contradiction H; reflexivity |].
      intros (f' & [= <-] & Hge). apply Hiff, Hq in E. lia.
    + split; [intros _ | intros _; discriminate].
      exists f. split; [reflexivity |].
      destruct (Z.lt_ge_cases x ns_per_s) as [Hlt | Hge]; [| exact Hge].
      exfalso. apply E, Hiff, Hq, Hlt.
  - split; [intros H; contradiction H; reflexivity |].
    intros (f & [=] & _).
Qed.

(** ** Invariants of the engine state *)

Lemma push_reading_nil (r : Reading) : push_reading [] r = [r].
Proof. reflexivity. Qed.

Lemma push_reading_one (a r : Reading) : push_reading [a] r = [a; r].
Proof. reflexivity. Qed.

Lemma push_reading_long (a b : Reading) (rest : list Reading) (r : Reading) :
  push_reading (a :: b :: rest) r = b :: (rest ++ [r])%list.
Proof.
  unfold push_reading.
  replace (2 <? List.length ((a :: b :: rest) ++ [r]))%nat with true.
  - reflexivity.
  - symmetry. apply Nat.ltb_lt. simpl. rewrite length_app. simpl. lia.
Qed.

(** How First Reading, the window and the accumulator relate: an empty
    window goes with no First Reading and a zero accumulator, a one-entry
    window with that entry as First Reading and a zero accumulator, a longer
    one with some First Reading. *)
Definition window_inv (m : BatteryMonitor) : Prop :=
  match readings m with
  | [] => firstReading m = None /\ totalSuspendEnergy m = 0%float
  | [r] => firstReading m = Some r /\ totalSuspendEnergy m = 0%float
  | _ => firstReading m <> None
  end.

Lemma step_window_inv (c : Call) (m : BatteryMonitor) :
  window_inv m -> window_inv (fst (step c m)).
Proof.
  intros H. destruct c as [env ps | env bs | em fu | env e]; simpl.
  - destruct ps; simpl; [destruct (enterSuspendTime m) |..]; exact H.
  - destruct bs; [split; reflexivity .. | exact H].
  - exact H.
  - unfold updateEnergy. destruct (isSuspended m); [exact H |].
    unfold window_inv in *.
    destruct (readings m) as [| a [| b rest]];
      [rewrite push_reading_nil | rewrite push_reading_one
      | rewrite push_reading_long];
      destruct (printSuspendStats m); simpl.
    + destruct H as [-> Ht]. auto.
    + destruct H as [-> Ht]. auto.
    + destruct H as [-> _]. discriminate.
    + destruct H as [-> _]. discriminate.
    + destruct (firstReading m); [| contradiction].
      destruct (rest ++ [_])%list eqn:E;
        [destruct rest; discriminate | discriminate].
    + destruct (firstReading m); [| contradiction].
      destruct (rest ++ [_])%list eqn:E;
        [destruct rest; discriminate | discriminate].
Qed.

Lemma reachable_window_inv (m : BatteryMonitor) :
  reachable m -> window_inv m.
Proof.
  induction 1 as [| c m _ IH]; [split; reflexivity |].
  now apply step_window_inv.
Qed.

Lemma run_reachable (cs : list Call) (m : BatteryMonitor) :
  reachable m -> reachable (fst (run cs m)).
Proof.
  revert m. induction cs as [| c cs IH]; intros m H; [exact H |].
  rewrite run_cons. apply IH, reachable_step, H.
Qed.

(** In every reachable state: the Sample Window is empty exactly when First
    Reading is unset; a one-entry window holds First Reading itself; and
    while the window has at most one entry the suspend-energy accumulator
    is 0. *)
Theorem reachable_first_reading_window (m : BatteryMonitor)
    (Hr : reachable m) :
  (readings m = [] <-> firstReading m = None) /\
  (forall r, readings m = [r] -> firstReading m = Some r) /\
  ((List.length (readings m) <= 1)%nat -> totalSuspendEnergy m = 0%float).
Proof.
  pose proof (reachable_window_inv m Hr) as H. unfold window_inv in H.
  destruct (readings m) as [| a [| b rest]].
  - destruct H as [H1 H2]. split; [split; auto |]. split; [discriminate | auto].
  - destruct H as [H1 H2]. split; [split; congruence |].
    split; [intros r [= ->]; exact H1 | auto].
  - split; [split; [discriminate | contradiction] |].
    split; [discriminate | simpl; lia].
Qed.

Lemma reachable_first_reading_window_witness :
  reachable averaged_example /\
  (readings averaged_example = [] <-> firstReading averaged_example = None).
Proof.
  assert (Hr : reachable averaged_example).
  { unfold averaged_example, resumed_example.
    apply run_reachable, run_reachable, reachable_init. }
  split; [exact Hr |].
  apply (reachable_first_reading_window averaged_example Hr).
Defined.

(** In a reachable state with an empty Sample Window a line carries only
    the message: no elapsed time and no statistics, whatever is asked. *)
Theorem print_empty_window (env : Env) (msg : string) (flags : Z)
    (m : BatteryMonitor) (Hr : reachable m) (He : readings m = []) :
  text (print env msg flags m) =
    if String.eqb msg "" then "" else " - " ++ msg.
Proof.
  pose proof (reachable_window_inv m Hr) as H. unfold window_inv in H.
  rewrite He in H. destruct H as [Hf _].
  unfold print, print_elapsed, back. rewrite He, Hf. reflexivity.
Qed.

Lemma print_empty_window_witness :
  text (print (mkEnv 0 0) "Battery idle" 0 init) = " - Battery idle".
Proof.
  rewrite (print_empty_window (mkEnv 0 0) "Battery idle" 0 init
             reachable_init eq_refl).
  reflexivity.
Defined.

(** With a single reading in the window a line never carries the energy
    delta, the rate or the average rate, whatever flags are asked: only the
    absolute-energy field can follow the message. *)
Theorem print_single_reading (env : Env) (msg : string) (flags : Z)
    (m : BatteryMonitor) (r : Reading) (H1 : readings m = [r]) :
  text (print env msg flags m) =
    print_elapsed env m ++ (if String.eqb msg "" then "" else " - " ++ msg)
    ++ print_energy flags m r.
Proof.
  unfold print, back, second_last. rewrite H1. cbn [text rev app].
  unfold print_relEnergy, print_rate, print_averageRate. rewrite H1.
  destruct (firstReading m); simpl; rewrite ?andb_false_r;
    rewrite ?string_app_nil_r, ?string_app_assoc; reflexivity.
Qed.

Lemma print_single_reading_witness :
  text (print (mkEnv 0 0) "" 15
          (fst (updateEnergy (mkEnv 0 0) 50 limits_example)))
  = print_elapsed (mkEnv 0 0)
      (fst (updateEnergy (mkEnv 0 0) 50 limits_example)) ++ "" ++
    print_energy 15 (fst (updateEnergy (mkEnv 0 0) 50 limits_example))
      (reading_of (mkEnv 0 0) 50).
Proof. apply print_single_reading. reflexivity. Defined.

(** ** What each entry point may change *)

(** The calls that reset the measurement epoch. *)
Definition is_reset (c : Call) : bool :=
  match c with
  | CallBattery _ Charging | CallBattery _ Discharging => true
  | _ => false
  end.

(** The pending-suspend-report flag is raised only by [setPowerState(Awake)]
    while a suspend-entry time is recorded, and every admitted reading
    lowers it. *)
Theorem pending_flag_lifecycle :
  (forall (c : Call) (m : BatteryMonitor),
     printSuspendStats m = false ->
     printSuspendStats (fst (step c m)) = true ->
     exists env, c = CallPower env Awake /\ isSuspended m = true) /\
  (forall (env : Env) (e : float) (m : BatteryMonitor),
     isSuspended m = false ->
     printSuspendStats (fst (updateEnergy env e m)) = false).
Proof.
  split.
  - intros c m Hf Ht. destruct c as [env ps | env bs | em fu | env e];
      simpl in Ht.
    + destruct ps; simpl in Ht.
      * unfold isSuspended. revert Ht.
        destruct (enterSuspendTime m); simpl; intros Ht; [eauto | congruence].
      * congruence.
      * congruence.
    + destruct bs; simpl in Ht; congruence.
    + simpl in Ht. congruence.
    + revert Ht. unfold updateEnergy.
      destruct (isSuspended m); [simpl; congruence |].
      destruct (printSuspendStats m); simpl; congruence.
  - intros env e m Hs. unfold updateEnergy. rewrite Hs.
    destruct (printSuspendStats m); reflexivity.
Qed.

Lemma pending_flag_lifecycle_witness :
  (exists env, CallPower (mkEnv 90000000000 0) Awake = CallPower env Awake /\
     isSuspended (fst (run [CallUpdate (mkEnv 0 0) 50%float;
                            CallPower (mkEnv 0 0) Suspended] init)) = true) /\
  printSuspendStats (fst (updateEnergy (mkEnv 95000000000 5000000000) 49
                            resumed_example)) = false.
Proof.
  destruct pending_flag_lifecycle as [H1 H2]. split.
  - apply H1; vm_compute; reflexivity.
  - apply H2. vm_compute. reflexivity.
Defined.

(** Once set, First Reading stays the same reading under every call except
    a Charging or Discharging reset, which unsets it. *)
Theorem first_reading_stable (c : Call) (m : BatteryMonitor) (f : Reading)
    (Hf : firstReading m = Some f) :
  firstReading (fst (step c m)) = if is_reset c then None else Some f.
Proof.
  destruct c as [env ps | env bs | em fu | env e]; simpl.
  - destruct ps; simpl; [destruct (enterSuspendTime m) |..]; exact Hf.
  - destruct bs; simpl; [reflexivity | reflexivity | exact Hf].
  - exact Hf.
  - unfold updateEnergy. destruct (isSuspended m); [exact Hf |].
    rewrite Hf. destruct (printSuspendStats m); reflexivity.
Qed.

Lemma first_reading_stable_witness :
  firstReading (fst (step (CallUpdate (mkEnv 1 1) 3) averaged_example))
  = Some (reading_of (mkEnv 0 0) 50).
Proof.
  rewrite (first_reading_stable (CallUpdate (mkEnv 1 1) 3) averaged_example
             (reading_of (mkEnv 0 0) 50));
    [reflexivity | vm_compute; reflexivity].
Defined.

(** The suspend-energy accumulator changes only at a Charging or
    Discharging reset or at a reading admitted while the
    pending-suspend-report flag is set. *)
Theorem suspend_energy_changes_only_at_resume_or_reset (c : Call)
    (m : BatteryMonitor)
    (Hch : totalSuspendEnergy (fst (step c m)) <> totalSuspendEnergy m) :
  is_reset c = true \/
  exists env e, c = CallUpdate env e /\ isSuspended m = false /\
                printSuspendStats m = true.
Proof.
  destruct c as [env ps | env bs | em fu | env e]; simpl in Hch |- *.
  - exfalso. apply Hch.
    destruct ps; simpl; [destruct (enterSuspendTime m) |..]; reflexivity.
  - destruct bs; [left; reflexivity | left; reflexivity |].
    exfalso. apply Hch. reflexivity.
  - exfalso. apply Hch. reflexivity.
  - right. exists env, e. split; [reflexivity |]. revert Hch.
    unfold updateEnergy. destruct (isSuspended m); [simpl; congruence |].
    destruct (printSuspendStats m); simpl; [auto | congruence].
Qed.

Lemma suspend_energy_changes_only_at_resume_or_reset_witness :
  is_reset (CallUpdate (mkEnv 95000000000 5000000000) 49) = true \/
  exists env e,
    CallUpdate (mkEnv 95000000000 5000000000) 49 = CallUpdate env e /\
    isSuspended resumed_example = false /\
    printSuspendStats resumed_example = true.
Proof.
  apply suspend_energy_changes_only_at_resume_or_reset.
  vm_compute. discriminate.
Defined.

(** ** [sleepEventMonitor] *)

(** The power-state call one [SystemdSleepEvent] signal
    [(stage, operation, extraAction)] leads to, if any. *)
Definition sleepEvent (stage operation : string) : option PowerState :=
  if String.eqb operation "suspend" then
    if String.eqb stage "pre" then Some Suspended
    else if String.eqb stage "post" then Some Awake
    else None
  else None.

(** One turn of the [while (true)] loop of [sleepEventMonitor]. *)
Definition handleSleepSignal (env : Env) (stage operation extraAction : string)
    (m : BatteryMonitor) : BatteryMonitor * list Line :=
  match sleepEvent stage operation with
  | Some ps => setPowerState env ps m
  | None => (m, [])
  end.

Record SleepSignal := mkSleepSignal {
  sig_env : Env; sig_stage : string; sig_operation : string;
  sig_extraAction : string }.

Fixpoint runSleepSignals (sigs : list SleepSignal) (m : BatteryMonitor)
    : BatteryMonitor * list Line :=
  match sigs with
  | [] => (m, [])
  | s :: rest =>
      let (m1, o1) := handleSleepSignal (sig_env s) (sig_stage s)
                        (sig_operation s) (sig_extraAction s) m in
      let (m2, o2) := runSleepSignals rest m1 in
      (m2, (o1 ++ o2)%list)
  end.

(** Whether the last ("suspend", "pre"/"post") signal of [sigs] was "pre";
    [d] when there is none. *)
Fixpoint last_suspend_is_pre (sigs : list SleepSignal) (d : bool) : bool :=
  match sigs with
  | [] => d
  | s :: rest =>
      last_suspend_is_pre rest
        (match sleepEvent (sig_stage s) (sig_operation s) with
         | Some Suspended => true
         | Some Awake => false
         | _ => d
         end)
  end.

Lemma runSleepSignals_cons (s : SleepSignal) (rest : list SleepSignal)
    (m : BatteryMonitor) :
  fst (runSleepSignals (s :: rest) m) =
  fst (runSleepSignals rest
         (fst (handleSleepSignal (sig_env s) (sig_stage s) (sig_operation s)
                 (sig_extraAction s) m))).
Proof.
  simpl. destruct (handleSleepSignal _ _ _ _ m) as [m1 o1]. simpl.
  destruct (runSleepSignals rest m1). reflexivity.
Qed.

(** A sleep signal whose operation is not "suspend", or whose stage is
    neither "pre" nor "post", changes nothing and writes nothing; after any
    stream of sleep signals the engine is suspended exactly when the last
    ("suspend", "pre" or "post") signal was "pre", and as before when there
    was none. *)
Theorem sleep_signals_suspension :
  (forall (env : Env) (stage operation extraAction : string)
          (m : BatteryMonitor),
     operation <> "suspend" \/ (stage <> "pre" /\ stage <> "post") ->
     handleSleepSignal env stage operation extraAction m = (m, [])) /\
  (forall (sigs : list SleepSignal) (m : BatteryMonitor),
     isSuspended (fst (runSleepSignals sigs m)) =
     last_suspend_is_pre sigs (isSuspended m)).
Proof.
  split.
  - intros env stage operation extraAction m Hsig.
    unfold handleSleepSignal, sleepEvent.
    destruct (String.eqb_spec operation "suspend") as [Hop | _];
      [| reflexivity].
    destruct Hsig as [Hsig | [Hpre Hpost]]; [contradiction |].
    destruct (String.eqb_spec stage "pre"); [contradiction |].
    destruct (String.eqb_spec stage "post"); [contradiction | reflexivity].
  - induction sigs as [| s rest IH]; intros m; [reflexivity |].
    rewrite runSleepSignals_cons, IH. simpl. f_equal.
    unfold handleSleepSignal.
    destruct (sleepEvent (sig_stage s) (sig_operation s)) as [[] |];
      simpl; unfold isSuspended; simpl; try reflexivity;
      destruct (enterSuspendTime m) eqn:E; simpl; rewrite ?E; reflexivity.
Qed.

Lemma sleep_signals_suspension_witness :
  handleSleepSignal (mkEnv 0 0) "pre" "hibernate" "" init = (init, []).
Proof.
  destruct sleep_signals_suspension as [H _].
  apply H. left. discriminate.
Defined.

(** ** Battery discovery in [powerEventMonitor] *)

Inductive Discovery :=
| BatteryFound (path : string)
| MultipleBatteries
| NoBattery.

(** The device loop of [powerEventMonitor] over the enumerated devices with
    their [Type] property, from the [batteryPath] found so far: the lines it
    writes and how discovery ends. *)
Fixpoint discover_loop (devices : list (string * Z))
    (batteryPath : option string) : list string * Discovery :=
  match devices with
  | [] =>
      match batteryPath with
      | None => (["No battery found" ++ String "010" ""], NoBattery)
      | Some p => ([], BatteryFound p)
      end
  | (device, type) :: rest =>
      if (type =? 2)%Z then
        let found := "Found battery at " ++ device ++ String "010" "" in
        match batteryPath with
        | Some _ =>
            ([found; "Multiple batteries not supported yet" ++ String "010" ""],
             MultipleBatteries)
        | None =>
            let (ls, r) := discover_loop rest (Some device) in (found :: ls, r)
        end
      else discover_loop rest batteryPath
  end.

Definition discoverBattery (devices : list (string * Z))
    : list string * Discovery :=
  discover_loop devices None.

Definition battery_paths (devices : list (string * Z)) : list string :=
  map fst (filter (fun d => (snd d =? 2)%Z) devices).

Definition found_line (p : string) : string :=
  "Found battery at " ++ p ++ String "010" "".

Lemma discover_loop_some (devices : list (string * Z)) (p : string) :
  discover_loop devices (Some p) =
  match battery_paths devices with
  | [] => ([], BatteryFound p)
  | q :: _ => ([found_line q;
                "Multiple batteries not supported yet" ++ String "010" ""],
               MultipleBatteries)
  end.
Proof.
  induction devices as [| [d t] rest IH]; [reflexivity |].
  unfold battery_paths in *. simpl.
  destruct (t =? 2)%Z; simpl; [reflexivity | exact IH].
Qed.

(** Discovery ends with the battery exactly when one device has type 2
    (a battery); with none it writes "No battery found"; with two or more it
    reports the first two and stops with "Multiple batteries not supported
    yet". *)
Theorem discoverBattery_result (devices : list (string * Z)) :
  discoverBattery devices =
  match battery_paths devices with
  | [] => (["No battery found" ++ String "010" ""], NoBattery)
  | [p] => ([found_line p], BatteryFound p)
  | p1 :: p2 :: _ =>
      ([found_line p1; found_line p2;
        "Multiple batteries not supported yet" ++ String "010" ""],
       MultipleBatteries)
  end.
Proof.
  unfold discoverBattery.
  induction devices as [| [d t] rest IH]; [reflexivity |].
  unfold battery_paths in *. simpl.
  destruct (t =? 2)%Z; simpl; [| exact IH].
  rewrite discover_loop_some. unfold battery_paths.
  destruct (map fst (filter (fun d => (snd d =? 2)%Z) rest)); reflexivity.
Qed.

(** ** Exceptions in [processBatteryProperties] *)

(** The notification without its entries named [k]. *)
Definition remove_key (k : string) (props : UPowerDeviceProperties)
    : UPowerDeviceProperties :=
  filter (fun kv => negb (String.eqb (fst kv) k)) props.

Lemma find_prop_remove_key (n k : string) (props : UPowerDeviceProperties) :
  find_prop n (remove_key k props) =
  if String.eqb n k then None else find_prop n props.
Proof.
  induction props as [| [k0 v] rest IH].
  - simpl. destruct (String.eqb n k); reflexivity.
  - unfold remove_key in *. simpl.
    destruct (String.eqb_spec k0 k) as [-> | Hk]; simpl.
    + rewrite IH. destruct (String.eqb_spec n k) as [-> | Hn];
        [reflexivity |].
      destruct (String.eqb_spec k n); [congruence | reflexivity].
    + destruct (String.eqb_spec k0 n) as [-> | Hn].
      * destruct (String.eqb_spec n k); [congruence | reflexivity].
      * exact IH.
Qed.

(** A [State] value of another type than [uint32] throws before anything
    is forwarded, even a valid [Energy]; an [EnergyFull] value without
    [EnergyEmpty] is never read, so it changes nothing even when mistyped;
    an [Energy] value of another type than [double] throws only after the
    state and limit calls the rest of the notification makes. *)
Theorem processBatteryProperties_exceptions :
  (forall (props : UPowerDeviceProperties) (v : UPowerDeviceProperty),
     find_prop "State" props = Some v -> get_uint32 v = None ->
     processBatteryProperties props = Threw []) /\
  (forall props : UPowerDeviceProperties,
     find_prop "EnergyEmpty" props = None ->
     processBatteryProperties props =
     processBatteryProperties (remove_key "EnergyFull" props)) /\
  (forall (props : UPowerDeviceProperties) (v : UPowerDeviceProperty),
     find_prop "Energy" props = Some v -> get_double v = None ->
     processBatteryProperties props =
     match processBatteryProperties (remove_key "Energy" props) with
     | Completed c => Threw c
     | Threw c => Threw c
     end).
Proof.
  split; [| split].
  - intros props v Hf Hg. unfold processBatteryProperties, state_step.
    rewrite Hf, Hg. reflexivity.
  - intros props He.
    unfold processBatteryProperties, state_step, limits_step, energy_step.
    rewrite !find_prop_remove_key. simpl. rewrite He. reflexivity.
  - intros props v Hf Hg.
    unfold processBatteryProperties, state_step, limits_step, energy_step.
    rewrite !find_prop_remove_key. simpl. rewrite Hf, Hg.
    destruct (find_prop "State" props) as [s |]; [destruct (get_uint32 s) |];
      [| reflexivity |];
      (destruct (find_prop "EnergyEmpty" props) as [a |];
       [destruct (get_double a) as [ea |];
        [destruct (find_prop "EnergyFull" props) as [b |];
         [destruct (get_double b) |] |] |]); reflexivity.
Qed.

Definition mistyped_energy_notification : UPowerDeviceProperties :=
  [("State", PUint32 2); ("Energy", PUint32 40);
   ("EnergyEmpty", PDouble 0%float); ("EnergyFull", PDouble 50%float)].

Lemma processBatteryProperties_exceptions_witness :
  processBatteryProperties [("State", PDouble 1%float); ("Energy", PDouble 40%float)]
    = Threw [] /\
  processBatteryProperties [("EnergyFull", PString "x"); ("Energy", PDouble 40%float)]
    = processBatteryProperties [("Energy", PDouble 40%float)] /\
  processBatteryProperties mistyped_energy_notification =
    Threw [FwdBatteryState Discharging; FwdBatteryLimits 0%float 50%float].
Proof.
  destruct processBatteryProperties_exceptions as [H1 [H2 H3]].
  split; [| split].
  - apply (H1 _ (PDouble 1%float)); reflexivity.
  - apply (H2 [("EnergyFull", PString "x"); ("Energy", PDouble 40%float)]).
    reflexivity.
  - rewrite (H3 mistyped_energy_notification (PUint32 40)); reflexivity.
Defined.

(** ** Percentages need both battery limits *)

Fixpoint has_char (c : ascii) (s : string) : bool :=
  match s with
  | EmptyString => false
  | String a rest => Ascii.eqb a c || has_char c rest
  end.

Definition no_pct (s : string) : Prop := has_char "%" s = false.

(** Whether [energyEmpty] or [energyFull] is still unset. *)
Definition limits_unknown (m : BatteryMonitor) : bool :=
  match energyEmpty m, energyFull m with
  | Some _, Some _ => false
  | _, _ => true
  end.

Definition no_limits_call (cs : list Call) : bool :=
  forallb (fun c => match c with CallLimits _ _ => false | _ => true end) cs.

Lemma has_char_app (c : ascii) (s1 s2 : string) :
  has_char c (s1 ++ s2) = has_char c s1 || has_char c s2.
Proof.
  induction s1 as [| a s1 IH]; [reflexivity |].
  simpl. rewrite IH. apply orb_assoc.
Qed.

Lemma no_pct_app (s1 s2 : string) : no_pct s1 -> no_pct s2 -> no_pct (s1 ++ s2).
Proof. unfold no_pct. rewrite has_char_app. intros -> ->. reflexivity. Qed.

Lemma uint_to_string_no_pct (u : Decimal.uint) : no_pct (uint_to_string u).
Proof. unfold no_pct. induction u; simpl; auto. Qed.

Lemma Z_to_dec_no_pct (n : Z) : no_pct (Z_to_dec n).
Proof.
  unfold Z_to_dec. destruct n; apply uint_to_string_no_pct.
Qed.

Lemma zero_pad_no_pct (w : nat) (s : string) : no_pct s -> no_pct (zero_pad w s).
Proof.
  revert s. induction w as [| w IH]; intros s Hs; [exact Hs |].
  cbn [zero_pad]. destruct (Nat.leb (S w) (String.length s)); [exact Hs |].
  apply IH. apply no_pct_app; [reflexivity | exact Hs].
Qed.

Ltac no_pct_tac :=
  repeat first
    [ apply no_pct_app
    | apply Z_to_dec_no_pct
    | apply zero_pad_no_pct
    | reflexivity
    | match goal with
      | |- no_pct (if ?b then _ else _) => destruct b
      | |- no_pct (match ?x with _ => _ end) => destruct x
      end ].

Lemma format_fixed_no_pct (plus : bool) (digits : nat) (x : float) :
  no_pct (format_fixed plus digits x).
Proof.
  unfold format_fixed. cbv zeta.
  destruct (Prim2SF x); no_pct_tac.
Qed.

Lemma formatRelTime_no_pct (tps d : Z) : no_pct (formatRelTime tps d).
Proof. unfold formatRelTime, formatRelTime_secs. cbv zeta. no_pct_tac. Qed.

Lemma printRate_no_pct (m : BatteryMonitor) (ed : float) (td : Z) :
  limits_unknown m = true -> no_pct (printRate m ed td).
Proof.
  unfold limits_unknown, printRate. intros H. cbv zeta.
  apply no_pct_app; [apply format_fixed_no_pct |].
  apply no_pct_app; [reflexivity |].
  destruct (energyEmpty m), (energyFull m); try discriminate; reflexivity.
Qed.

Lemma print_no_pct (env : Env) (msg : string) (flags : Z) (m : BatteryMonitor) :
  limits_unknown m = true -> no_pct msg -> no_pct (text (print env msg flags m)).
Proof.
  intros H Hmsg.
  assert (Hl : forall A (f : float -> float -> A) (d : A),
            match energyEmpty m, energyFull m with
            | Some a, Some b => f a b | _, _ => d end = d).
  { intros A f d. unfold limits_unknown in H.
    destruct (energyEmpty m), (energyFull m); try discriminate; reflexivity. }
  assert (Hel : no_pct (print_elapsed env m)).
  { unfold print_elapsed. no_pct_tac. apply formatRelTime_no_pct. }
  assert (Hhead : no_pct (print_elapsed env m ++
                          (if String.eqb msg "" then "" else " - " ++ msg))).
  { apply no_pct_app; [exact Hel |].
    destruct (String.eqb msg ""); [reflexivity |].
    apply no_pct_app; [reflexivity | exact Hmsg]. }
  unfold print. simpl. destruct (back (readings m)) as [cur |]; [| exact Hhead].
  apply no_pct_app; [exact Hhead |].
  repeat apply no_pct_app.
  - unfold print_energy. destruct (has_stat flags Stat_energy); [| reflexivity].
    rewrite Hl. no_pct_tac. apply format_fixed_no_pct.
  - unfold print_relEnergy. destruct (second_last (readings m)); [| reflexivity].
    destruct (has_stat flags Stat_relEnergy); [| reflexivity].
    rewrite Hl. no_pct_tac. apply format_fixed_no_pct.
  - unfold print_rate. destruct (second_last (readings m)); [| reflexivity].
    destruct (has_stat flags Stat_rate); [| reflexivity].
    apply no_pct_app; [reflexivity | apply printRate_no_pct, H].
  - unfold print_averageRate. destruct (firstReading m); [| reflexivity].
    destruct (_ && _); [| reflexivity].
    apply no_pct_app; [reflexivity | apply printRate_no_pct, H].
Qed.

Lemma step_limits_unknown (c : Call) (m : BatteryMonitor) :
  match c with CallLimits _ _ => false | _ => true end = true ->
  limits_unknown (fst (step c m)) = limits_unknown m.
Proof.
  intros Hc.
  assert (E : (energyEmpty (fst (step c m)), energyFull (fst (step c m))) =
              (energyEmpty m, energyFull m)).
  { rewrite step_limits. destruct c; [reflexivity | reflexivity |
      discriminate | reflexivity]. }
  injection E as H1 H2. unfold limits_unknown. rewrite H1, H2. reflexivity.
Qed.

Lemma step_no_pct (c : Call) (m : BatteryMonitor) :
  limits_unknown m = true ->
  match c with CallLimits _ _ => false | _ => true end = true ->
  Forall (fun l => no_pct (text l)) (snd (step c m)).
Proof.
  intros H Hc. destruct c as [env ps | env bs | em fu | env e];
    [| | discriminate |]; simpl.
  - destruct ps; simpl; [destruct (enterSuspendTime m) as [t |] | |]; simpl;
      repeat constructor; apply print_no_pct; try exact H.
    + pose proof (formatRelTime_no_pct 1000 (Z.quot (wall_now env - t) ms_per_ns))
        as Hf.
      unfold no_pct in *. simpl. rewrite has_char_app, Hf. reflexivity.
    + reflexivity.
  - destruct bs; simpl; repeat constructor; apply print_no_pct;
      try exact H; reflexivity.
  - unfold updateEnergy. destruct (isSuspended m); [constructor |].
    cbv zeta. destruct (printSuspendStats m); repeat constructor;
      apply print_no_pct; try exact H; reflexivity.
Qed.

(** A percentage ([%]) is only ever written once both battery limits are
    known: from a state lacking [energyEmpty] or [energyFull], a run with no
    [setBatteryLimits] call writes no [%] in any line. *)
Theorem no_percent_without_limits (cs : list Call) (m : BatteryMonitor) :
  limits_unknown m = true -> no_limits_call cs = true ->
  forallb (fun l => negb (has_char "%" (text l))) (snd (run cs m)) = true.
Proof.
  revert m. induction cs as [| c cs IH]; intros m H Hcs; [reflexivity |].
  simpl in Hcs. apply andb_prop in Hcs as [Hc Hcs].
  pose proof (step_no_pct c m H Hc) as Hs.
  pose proof (step_limits_unknown c m Hc) as Hu.
  simpl. destruct (step c m) as [m1 o1] eqn:E. simpl in Hs, Hu.
  destruct (run cs m1) as [m2 o2] eqn:E2. simpl.
  rewrite forallb_app. apply andb_true_intro. split.
  - apply forallb_forall. intros l Hl.
    rewrite Forall_forall in Hs. unfold no_pct in Hs. rewrite (Hs l Hl).
    reflexivity.
  - specialize (IH m1). rewrite E2 in IH. apply IH; [congruence | exact Hcs].
Qed.

Definition no_limits_example_calls : list Call :=
  [CallBattery (mkEnv 0 0) Discharging;
   CallUpdate (mkEnv 1000000000 1000000000) 40%float;
   CallPower (mkEnv 2000000000 2000000000) Suspended;
   CallPower (mkEnv 3000000000 3000000000) Awake;
   CallUpdate (mkEnv 4000000000 4000000000) 39%float].

Lemma no_percent_without_limits_witness :
  forallb (fun l => negb (has_char "%" (text l)))
    (snd (run no_limits_example_calls init)) = true.
Proof.
  apply no_percent_without_limits; reflexivity.
Defined.
